(** * The Sphinx configuration module [source/conf.py] of the iceoryx2 book

    [conf.py] is a straight-line Python module: a sequence of assignments
    of literals to module-level names.  The embedding keeps that shape.
    Every assigned value is a literal of type [pyval]; every assignment
    target keeps its Python name; the module body [conf_py] is the list of
    assignment statements in source order, and [exec_module] runs it into
    a namespace (later bindings overwrite earlier ones, as in Python).
    Dictionary displays are kept as their item lists and evaluated by
    [dict_display] (again, a later item overwrites an earlier one).

    The regular expressions of the file are interpreted by Python's [re]
    module, which lives outside the repository.  Module [Re] models the
    fragment of its pattern language that [conf.py] uses: the parser
    follows [sre_parse._parse], and [fullmatch] the backtracking matcher.
    Module [Discovery] does the same for the tool's walk over the source
    files, which reads [exclude_patterns], [templates_path],
    [html_static_path] and [source_suffix]. *)

From Stdlib Require Import ZArith NArith Ascii String List Floats.SpecFloat.
From stdpp Require Import gmap strings list fin_maps.

Open Scope string_scope.

(** ** Python literals *)

#[local] Set Warnings "-register-all,-clear-no-such-hyp".

Inductive pyval : Type :=
| PStr (s : string)
| PInt (z : Z)
| PFloat (f : spec_float)
| PBool (b : bool)
| PList (xs : list pyval)
| PDict (items : list (string * pyval)).

(** A float literal denotes the nearest IEEE binary64 number. *)
Definition float_of_Z (z : Z) : spec_float :=
  binary_normalize 53 1024 z 0 false.

(** Evaluation of a dictionary display [{k1: v1, ..., kn: vn}]: the items
    are inserted left to right. *)
Definition dict_display {V} (items : list (string * V)) : gmap string V :=
  foldl (λ d kv, <[kv.1 := kv.2]> d) ∅ items.

(** Execution of a module body made of assignments [name = literal]. *)
Definition exec_module (body : list (string * pyval)) : gmap string pyval :=
  foldl (λ ns stmt, <[stmt.1 := stmt.2]> ns) ∅ body.

Definition strs (l : list string) : pyval := PList (PStr <$> l).

Definition str_items (l : list (string * string)) : list (string * pyval) :=
  prod_map id PStr <$> l.

(** ** The module, value by value *)

(** *** Project information *)

Definition project : string := "the iceoryx2 book".
Definition copyright : string := "2025, ekxide.io".
Definition author : string := "ekxide developers".

(** *** General configuration *)

Definition extensions : list string :=
  [ "sphinx.ext.autodoc";
    "sphinx.ext.viewcode";
    "sphinxcontrib.mermaid";
    "myst_parser";
    "sphinx_design";
    "sphinx_multiversion" ].

Definition myst_enable_extensions : list string :=
  [ "deflist";
    "attrs_block";
    "attrs_inline" ].
Definition myst_heading_anchors : Z := 3.

(** Raw string literals: a backslash stands for itself, as it does in a
    Rocq string. *)
Definition smv_branch_whitelist : string := "^main$".
Definition smv_tag_whitelist : string := "^v\d+\.\d+\.\d+$".
Definition smv_remote_whitelist : string := "^origin$".
Definition smv_released_pattern : string := "^tags/v\d+\.\d+\.\d+$".

Definition templates_path : list string := ["_templates"].
Definition exclude_patterns : list string := [].

Definition source_suffix : list (string * string) :=
  [ (".rst", "restructuredtext");
    (".md", "markdown") ].

(** *** Options for linkcheck *)

Definition linkcheck_timeout : Z := 30.
Definition linkcheck_workers : Z := 5.
Definition linkcheck_retries : Z := 3.
Definition linkcheck_ignore : list string :=
  [ "http://localhost.*";
    "http://127\.0\.0\.1.*" ].

Definition linkcheck_rate_limit_timeout : spec_float := float_of_Z 60.
Definition linkcheck_anchors : bool := true.

(** *** Options for HTML output *)

Definition html_theme : string := "furo".
Definition html_title : string := "The iceoryx2 Book".

Definition light_css_variables : list (string * string) :=
  [ ("color-brand-primary", "#6c7b7f");
    ("color-brand-content", "#6c7b7f");
    ("color-background-primary", "#ffffff");
    ("color-background-secondary", "#f9fafb");
    ("color-background-hover", "#f3f4f6");
    ("color-background-border", "#e5e7eb");
    ("color-foreground-primary", "#1f2937");
    ("color-foreground-secondary", "#6b7280");
    ("color-foreground-muted", "#9ca3af");
    ("color-foreground-border", "#e5e7eb");
    ("color-code-background", "#f3f4f6");
    ("color-code-foreground", "#1f2937");
    ("color-link", "#6c7b7f");
    ("color-link-underline", "#6c7b7f");
    ("color-link-underline--hover", "#4b5563");
    ("color-sidebar-background", "#f9fafb");
    ("color-sidebar-background-border", "#e5e7eb");
    ("color-sidebar-item-background--hover", "#f3f4f6");
    ("color-sidebar-link-text", "#4b5563");
    ("color-sidebar-link-text--top-level", "#1f2937");
    ("color-sidebar-caption-text", "#6b7280") ].

Definition dark_css_variables : list (string * string) :=
  [ ("color-brand-primary", "#9ca3af");
    ("color-brand-content", "#9ca3af");
    ("color-background-primary", "#1C1D1F");
    ("color-background-secondary", "#252628");
    ("color-background-hover", "#2a2c2f");
    ("color-background-border", "#38393b");
    ("color-foreground-primary", "#d2dbde");
    ("color-foreground-secondary", "#859399");
    ("color-foreground-muted", "#859399");
    ("color-foreground-border", "#38393b");
    ("color-code-background", "#2a2c2f");
    ("color-code-foreground", "#d2dbde");
    ("color-link", "#9ca3af");
    ("color-link-underline", "#9ca3af");
    ("color-link-underline--hover", "#d1d5db");
    ("color-sidebar-background", "#252628");
    ("color-sidebar-background-border", "#38393b");
    ("color-sidebar-item-background--hover", "#2a2c2f");
    ("color-sidebar-link-text", "#d2dbde");
    ("color-sidebar-link-text--top-level", "#ffffff");
    ("color-sidebar-caption-text", "#859399") ].

Definition html_theme_options : list (string * pyval) :=
  [ ("top_of_page_buttons", PList []);
    ("light_css_variables", PDict (str_items light_css_variables));
    ("dark_css_variables", PDict (str_items dark_css_variables)) ].

Definition html_static_path : list string := ["_static"].
Definition html_permalinks_icon : string := "#".
Definition html_css_files : list string :=
  [ "css/custom.css" ].

(** ** The module body, in source order *)

Definition conf_py : list (string * pyval) :=
  [ ("project", PStr project);
    ("copyright", PStr copyright);
    ("author", PStr author);
    ("extensions", strs extensions);
    ("myst_enable_extensions", strs myst_enable_extensions);
    ("myst_heading_anchors", PInt myst_heading_anchors);
    ("smv_branch_whitelist", PStr smv_branch_whitelist);
    ("smv_tag_whitelist", PStr smv_tag_whitelist);
    ("smv_remote_whitelist", PStr smv_remote_whitelist);
    ("smv_released_pattern", PStr smv_released_pattern);
    ("templates_path", strs templates_path);
    ("exclude_patterns", strs exclude_patterns);
    ("source_suffix", PDict (str_items source_suffix));
    ("linkcheck_timeout", PInt linkcheck_timeout);
    ("linkcheck_workers", PInt linkcheck_workers);
    ("linkcheck_retries", PInt linkcheck_retries);
    ("linkcheck_ignore", strs linkcheck_ignore);
    ("linkcheck_rate_limit_timeout", PFloat linkcheck_rate_limit_timeout);
    ("linkcheck_anchors", PBool linkcheck_anchors);
    ("html_theme", PStr html_theme);
    ("html_title", PStr html_title);
    ("html_theme_options", PDict html_theme_options);
    ("html_static_path", strs html_static_path);
    ("html_permalinks_icon", PStr html_permalinks_icon);
    ("html_css_files", strs html_css_files) ].

(** The names bound by the module, one per assignment statement. *)
Definition assigned_names (body : list (string * pyval)) : list string :=
  fst <$> body.

(** The bindings the module makes in its namespace.  The tool's loader
    puts [__file__], [tags] and [__builtins__] in the same namespace; they
    are not settings and are left out. *)
Definition conf : gmap string pyval := exec_module conf_py.

(** ** Accessors used by the properties below *)

Definition as_dict (v : pyval) : option (gmap string pyval) :=
  match v with PDict items => Some (dict_display items) | _ => None end.

(** [conf[name][key]] for a setting holding a dictionary. *)
Definition setting_item (name key : string) : option pyval :=
  d ← conf !! name ≫= as_dict; (d : gmap string pyval) !! key.

(** The two palettes as the theme receives them:
    [html_theme_options["light_css_variables"]] and
    [html_theme_options["dark_css_variables"]]. *)
Definition palette (mode : string) : option (gmap string pyval) :=
  setting_item "html_theme_options" mode ≫= as_dict.

(** ** Hexadecimal colours: [#] followed by six hexadecimal digits *)

Definition is_hex_digit (c : ascii) : bool :=
  let n := nat_of_ascii c in
  ((48 <=? n) && (n <=? 57)           (* 0-9 *)
   || (97 <=? n) && (n <=? 102)       (* a-f *)
   || (65 <=? n) && (n <=? 70))%nat.  (* A-F *)

Definition is_hex_color (s : string) : bool :=
  match s with
  | String "#" digits =>
      (String.length digits =? 6)%nat && forallb is_hex_digit (list_ascii_of_string digits)
  | _ => false
  end.

Definition hex_color_value (v : pyval) : bool :=
  match v with PStr s => is_hex_color s | _ => false end.

(** ** File suffixes *)

Definition starts_with_dot (s : string) : bool :=
  match s with String "." _ => true | _ => false end.

(** ** File discovery

    [exclude_patterns] is one of several lists of glob patterns that the
    build tool hands to its file walk.  [excluded] is the test of one such
    list against a path, for an arbitrary glob matcher. *)

Section Exclusion.
Variable glob_match : string → string → bool.

End Exclusion.

(** Sphinx's discovery of source files: [BuildEnvironment.find_files],
    [Project.discover] and [sphinx.util.matching].  Paths are relative to
    the source directory, with [/] as separator. *)

Module Discovery.

(** What a glob pattern is translated to: [Exactly c] is the escaped
    character, [Star] is [[^/]*], [DoubleStar] is [.*] and [Question] is
    [[^/]]. *)
Inductive glob_node : Type :=
| Exactly (c : ascii)
| Star
| DoubleStar
| Question.

(** [_translate_pattern]; bracket expressions are left out ([None]). *)
Fixpoint _translate_pattern (pat : list ascii) : option (list glob_node) :=
  match pat with
  | [] => Some []
  | c :: pat' =>
      if Ascii.eqb c "*" then
        match pat' with
        | c' :: pat'' =>
            if Ascii.eqb c' "*" then cons DoubleStar <$> _translate_pattern pat''
            else cons Star <$> _translate_pattern pat'
        | [] => cons Star <$> _translate_pattern pat'
        end
      else if Ascii.eqb c "?" then cons Question <$> _translate_pattern pat'
      else if Ascii.eqb c "[" then None
      else cons (Exactly c) <$> _translate_pattern pat'
  end.

Definition newline : ascii := ascii_of_nat 10.

(** A greedy run of characters satisfying [ok], then [k]. *)
Fixpoint run (ok : ascii → bool) (k : list ascii → bool) (s : list ascii) : bool :=
  match s with
  | c :: s' => ok c && run ok k s'
  | [] => false
  end || k s.

(** [re.match] of the translated pattern, which ends in [$]: the end of
    the string, or just before one final newline. *)
Fixpoint nodes_match (p : list glob_node) (s : list ascii) : bool :=
  match p with
  | [] => match s with [] => true | [c] => Ascii.eqb c newline | _ => false end
  | Exactly c :: p' =>
      match s with
      | c' :: s' => Ascii.eqb c c' && nodes_match p' s'
      | [] => false
      end
  | Question :: p' =>
      match s with
      | c' :: s' => negb (Ascii.eqb c' "/") && nodes_match p' s'
      | [] => false
      end
  | Star :: p' => run (λ c, negb (Ascii.eqb c "/")) (nodes_match p') s
  | DoubleStar :: p' => run (λ c, negb (Ascii.eqb c newline)) (nodes_match p') s
  end.

Definition compile_matchers (patterns : list string) : option (list (list glob_node)) :=
  mapM (λ pat, _translate_pattern (list_ascii_of_string pat)) patterns.

Definition any_match (matchers : list (list glob_node)) (entry : list ascii) : bool :=
  existsb (λ m, nodes_match m entry) matchers.

(** The directories above an entry, outermost first: [a] and [a/b] for
    [a/b/c.md]. *)
Fixpoint parents_from (seen : list ascii) (s : list ascii) : list (list ascii) :=
  match s with
  | [] => []
  | c :: s' =>
      (if Ascii.eqb c "/" then [rev seen] else []) ++ parents_from (c :: seen) s'
  end.

Definition parents (entry : string) : list (list ascii) :=
  parents_from [] (list_ascii_of_string entry).

(** [get_matching_files], asked about one file of the tree: the walk does
    not descend into a directory that an exclude matcher accepts, and it
    keeps a file that some include matcher accepts and no exclude matcher
    does. *)
Definition get_matching_files (include_patterns exclude_patterns : list string)
    (entry : string) : option bool :=
  inc ← compile_matchers include_patterns;
  exc ← compile_matchers exclude_patterns;
  Some (forallb (λ d, negb (any_match exc d)) (parents entry)
        && any_match inc (list_ascii_of_string entry)
        && negb (any_match exc (list_ascii_of_string entry))).

(** Patterns the walk always excludes. *)
Definition EXCLUDE_PATHS : list string :=
  [ "**/_sources"; ".#*"; "**/.#*"; "*.lproj/**" ].

(** Settings that [conf.py] does not assign keep the tool's defaults. *)
Definition include_patterns : list string := ["**"].
Definition html_extra_path : list string := [].

(** [StandaloneHTMLBuilder.get_asset_paths] *)
Definition get_asset_paths : list string := html_extra_path ++ html_static_path.

(** [Project.path2doc]: a file is a document when its name ends with one
    of the keys of [source_suffix]. *)
Definition path2doc (filename : string) : bool :=
  existsb (λ sfx, bool_decide (list_ascii_of_string sfx `suffix_of`
                                 list_ascii_of_string filename))
    source_suffix.*1.

(** [Project.discover]: is the file a document of the build, given the
    exclusion list of the caller? *)
Definition discover (exclude_paths : list string) (filename : string) : option bool :=
  found ← get_matching_files include_patterns (exclude_paths ++ EXCLUDE_PATHS) filename;
  Some (found && path2doc filename).

(** [BuildEnvironment.find_files] with the HTML builder. *)
Definition find_files (filename : string) : option bool :=
  discover (exclude_patterns ++ templates_path ++ get_asset_paths) filename.

End Discovery.

(** ** Regular expressions: the fragment of Python's [re] used by the file *)

Module Re.

(** A Python string is a sequence of code points. *)
Definition str (s : string) : list N := N_of_ascii <$> list_ascii_of_string s.

Inductive category : Type := CategoryDigit | CategoryNotDigit.

(** Nodes that consume exactly one character. *)
Inductive atom : Type :=
| Literal (c : N)
| Any
| InCategory (cat : category).

Inductive position : Type := AtBeginning | AtEnd.

(** [*] is MAX_REPEAT(0, MAXREPEAT), [+] is MAX_REPEAT(1, MAXREPEAT) and
    [?] is MAX_REPEAT(0, 1). *)
Inductive repeat : Type := ZeroOrMore | OneOrMore | ZeroOrOne.

(** Without groups a repeat always applies to a one-character node. *)
Inductive item : Type :=
| One (a : atom)
| At (p : position)
| MaxRepeat (q : repeat) (a : atom).

(** Result of parsing: a parsed pattern, the error [re.compile] raises, or
    a pattern that uses syntax this fragment does not cover (groups,
    alternation, character sets, counted and lazy repeats, the other
    escapes), about which the model says nothing. *)
Inductive outcome : Type :=
| Parsed (p : list item)
| PatternError (msg : string)
| OutsideFragment.

Definition is_ascii_letter (c : ascii) : bool :=
  let n := nat_of_ascii c in
  ((65 <=? n) && (n <=? 90) || (97 <=? n) && (n <=? 122))%nat.

Definition is_ascii_digit (c : ascii) : bool :=
  let n := nat_of_ascii c in ((48 <=? n) && (n <=? 57))%nat.

Definition one_of (cs : string) (c : ascii) : bool :=
  existsb (Ascii.eqb c) (list_ascii_of_string cs).

(** [sre_parse._escape] on the character after the backslash. *)
Definition _escape (c : ascii) : option atom + string :=
  if Ascii.eqb c "d" then inl (Some (InCategory CategoryDigit))
  else if Ascii.eqb c "D" then inl (Some (InCategory CategoryNotDigit))
  else if one_of "AbBsSwWZ" c then inl None        (* other categories *)
  else if Ascii.eqb c "a" then inl (Some (Literal 7))
  else if Ascii.eqb c "f" then inl (Some (Literal 12))
  else if Ascii.eqb c "n" then inl (Some (Literal 10))
  else if Ascii.eqb c "r" then inl (Some (Literal 13))
  else if Ascii.eqb c "t" then inl (Some (Literal 9))
  else if Ascii.eqb c "v" then inl (Some (Literal 11))
  else if one_of "xuUN" c || is_ascii_digit c then inl None
  else if is_ascii_letter c then inr ("bad escape \" ++ String c EmptyString)
  else if (128 <=? nat_of_ascii c)%nat then inl None
  else inl (Some (Literal (N_of_ascii c))).

Definition repeat_of (c : ascii) : option repeat :=
  if Ascii.eqb c "*" then Some ZeroOrMore
  else if Ascii.eqb c "+" then Some OneOrMore
  else if Ascii.eqb c "?" then Some ZeroOrOne
  else None.

(** [sre_parse._parse], one character of the source at a time;
    [subpattern] holds the items parsed so far, last one first. *)
Fixpoint _parse (source : list ascii) (subpattern : list item) : outcome :=
  match source with
  | [] => Parsed (rev subpattern)
  | this :: source' =>
      if Ascii.eqb this "\" then
        match source' with
        | [] => PatternError "bad escape (end of pattern)"
        | c :: source'' =>
            match _escape c with
            | inl (Some a) => _parse source'' (One a :: subpattern)
            | inl None => OutsideFragment
            | inr msg => PatternError msg
            end
        end
      else match repeat_of this with
      | Some q =>
          match subpattern with
          | [] | At _ :: _ => PatternError "nothing to repeat"
          | MaxRepeat _ _ :: _ => PatternError "multiple repeat"
          | One a :: subpattern' =>
              match source' with
              | next :: _ =>
                  if one_of "?+" next then OutsideFragment   (* lazy, possessive *)
                  else _parse source' (MaxRepeat q a :: subpattern')
              | [] => _parse source' (MaxRepeat q a :: subpattern')
              end
          end
      | None =>
          if Ascii.eqb this "." then _parse source' (One Any :: subpattern)
          else if Ascii.eqb this "^" then _parse source' (At AtBeginning :: subpattern)
          else if Ascii.eqb this "$" then _parse source' (At AtEnd :: subpattern)
          else if Ascii.eqb this ")" then PatternError "unbalanced parenthesis"
          else if one_of "([{|" this then OutsideFragment
          else if (128 <=? nat_of_ascii this)%nat then OutsideFragment
          else _parse source' (One (Literal (N_of_ascii this)) :: subpattern)
      end
  end.

(** [re.compile(pattern)] *)
Definition compile (pattern : string) : outcome :=
  _parse (list_ascii_of_string pattern) [].

Definition is_valid (pattern : string) : bool :=
  match compile pattern with Parsed _ => true | _ => false end.

Section Matching.
(** Membership in Unicode general category Nd, the meaning of [\d] on
    [str] patterns; the table belongs to the Unicode database. *)
Variable unicode_decimal : N → bool.

Definition atom_matches (a : atom) (c : N) : bool :=
  match a with
  | Literal c' => N.eqb c c'
  | Any => negb (N.eqb c 10)
  | InCategory CategoryDigit => unicode_decimal c
  | InCategory CategoryNotDigit => negb (unicode_decimal c)
  end.

Definition at_position (p : position) (pos : nat) (rest : list N) : bool :=
  match p with
  | AtBeginning => Nat.eqb pos 0
  | AtEnd => match rest with [] => true | [c] => N.eqb c 10 | _ => false end
  end.

(** The backtracking matcher.  [pos] characters of the subject have
    been consumed and [rest] remains; [k] is what has to match after
    the node at hand. *)
Definition one (a : atom) (k : nat → list N → bool)
    (pos : nat) (rest : list N) : bool :=
  match rest with
  | c :: rest' => atom_matches a c && k (S pos) rest'
  | [] => false
  end.

(** A greedy unbounded repeat: one more character first, then the
    continuation at the current position. *)
Fixpoint many (a : atom) (k : nat → list N → bool)
    (pos : nat) (rest : list N) {struct rest} : bool :=
  match rest with
  | c :: rest' => atom_matches a c && many a k (S pos) rest'
  | [] => false
  end || k pos rest.

(** The match must end at the end of the subject. *)
Fixpoint match_here (p : list item) (pos : nat) (rest : list N) {struct p} : bool :=
  match p with
  | [] => match rest with [] => true | _ => false end
  | One a :: p' => one a (match_here p') pos rest
  | At where_ :: p' => at_position where_ pos rest && match_here p' pos rest
  | MaxRepeat ZeroOrMore a :: p' => many a (match_here p') pos rest
  | MaxRepeat OneOrMore a :: p' => one a (many a (match_here p')) pos rest
  | MaxRepeat ZeroOrOne a :: p' =>
      one a (match_here p') pos rest || match_here p' pos rest
  end.

(** [re.fullmatch(pattern, subject) is not None]; [None] when the
    pattern does not compile in the fragment. *)
Definition fullmatch (pattern : string) (subject : list N) : option bool :=
  match compile pattern with
  | Parsed p => Some (match_here p 0 subject)
  | _ => None
  end.

(** The same matcher with the test at the end of the pattern left open:
    [finish] says which remainders of the subject are acceptable. *)
Fixpoint match_from (finish : list N → bool) (p : list item)
    (pos : nat) (rest : list N) {struct p} : bool :=
  match p with
  | [] => finish rest
  | One a :: p' => one a (match_from finish p') pos rest
  | At where_ :: p' => at_position where_ pos rest && match_from finish p' pos rest
  | MaxRepeat ZeroOrMore a :: p' => many a (match_from finish p') pos rest
  | MaxRepeat OneOrMore a :: p' => one a (many a (match_from finish p')) pos rest
  | MaxRepeat ZeroOrOne a :: p' =>
      one a (match_from finish p') pos rest || match_from finish p' pos rest
  end.

(** [re.match(pattern, subject) is not None]: the match starts at the
    beginning of the subject and may stop anywhere. *)
Definition match_ (pattern : string) (subject : list N) : option bool :=
  match compile pattern with
  | Parsed p => Some (match_from (λ _, true) p 0 subject)
  | _ => None
  end.

(** The link checker skips a URI when [re.match] succeeds for one of the
    ignore patterns. *)
Definition link_ignored (patterns : list string) (uri : list N) : bool :=
  existsb (λ pattern, match match_ pattern uri with Some b => b | None => false end)
    patterns.

(** A non-empty run of decimal digits. *)
Definition decimal_number (ds : list N) : Prop :=
  ds ≠ [] ∧ Forall (λ c, unicode_decimal c = true) ds.
End Matching.

(** The ASCII digits, which every version of the Nd table contains. *)
Definition ascii_decimal (c : N) : bool := ((48 <=? c) && (c <=? 57))%N.

(** A run of literal characters. *)
Definition literals (w : list N) : list item := One ∘ Literal <$> w.

(** A pattern free of [^]. *)
Definition no_beginning (p : list item) : bool :=
  forallb (λ i, match i with At AtBeginning => false | _ => true end) p.

(** The remainder a full match accepts: none. *)
Definition nothing_left (rest : list N) : bool :=
  match rest with [] => true | _ => false end.

(** The nodes of [v\d+\.\d+\.\d+$], the part that the tag whitelist and
    the released pattern have in common. *)
Definition version_tail : list item :=
  [ One (Literal 118);
    MaxRepeat OneOrMore (InCategory CategoryDigit); One (Literal 46);
    MaxRepeat OneOrMore (InCategory CategoryDigit); One (Literal 46);
    MaxRepeat OneOrMore (InCategory CategoryDigit); At AtEnd ].

End Re.

(** ** The settings that hold regular expressions *)

Definition pattern_valued_settings : list string :=
  [ smv_branch_whitelist; smv_tag_whitelist; smv_remote_whitelist;
    smv_released_pattern ] ++ linkcheck_ignore.

(** Non-negativity of a numeric setting. *)
Definition non_negative (v : pyval) : bool :=
  match v with
  | PInt z => (0 <=? z)%Z
  | PFloat f => SFleb (S754_zero false) f
  | _ => false
  end.

(** * Properties *)

(** ** Dictionary displays and module execution *)

Section Display.
Context {V : Type}.
Implicit Types (items : list (string * V)) (d : gmap string V).

Lemma foldl_insert_lookup items d k v :
  foldl (λ d kv, <[kv.1 := kv.2]> d) d items !! k = Some v →
  (k, v) ∈ items ∨ d !! k = Some v.
Proof.
  revert d. induction items as [|[k' v'] items IH]; intros d; simpl.
  - by right.
  - intros [Hin | Hd]%IH.
    + left. by right.
    + rewrite lookup_insert in Hd. case_decide; simplify_eq/=.
      * left. by left.
      * by right.
Qed.

(** Whatever a display maps a key to was written in one of its items. *)
Lemma dict_display_lookup items k v :
  dict_display items !! k = Some v → (k, v) ∈ items.
Proof.
  intros [?|Hd]%foldl_insert_lookup; [done|]. by rewrite lookup_empty in Hd.
Qed.

Lemma foldl_insert_dom items d :
  dom (foldl (λ d kv, <[kv.1 := kv.2]> d) d items) = list_to_set items.*1 ∪ dom d.
Proof.
  revert d. induction items as [|[k' v'] items IH]; intros d; simpl.
  - set_solver.
  - rewrite IH, dom_insert_L. set_solver.
Qed.

(** The keys of the evaluated display are the keys written in it. *)
Lemma dict_display_dom items :
  dom (dict_display items) = list_to_set items.*1.
Proof. unfold dict_display. rewrite foldl_insert_dom, dom_empty_L. set_solver. Qed.
End Display.

Lemma palette_light :
  palette "light_css_variables" = Some (dict_display (str_items light_css_variables)).
Proof. reflexivity. Qed.

Lemma palette_dark :
  palette "dark_css_variables" = Some (dict_display (str_items dark_css_variables)).
Proof. reflexivity. Qed.

Lemma str_items_hex (l : list (string * string)) :
  forallb (λ kv, is_hex_color kv.2) l = true →
  Forall (λ kv, hex_color_value kv.2 = true) (str_items l).
Proof.
  induction l as [|[k v] l IH]; simpl; [constructor|].
  intros [Hv Hl]%andb_true_iff. constructor; [exact Hv | exact (IH Hl)].
Qed.

(** ** Structural well-formedness of the table *)

(** C1: the four version-filter patterns and the two entries of
    [linkcheck_ignore], six strings in all, are accepted by the regular
    expression parser. *)
Theorem patterns_are_valid_regexes :
  length pattern_valued_settings = 6 ∧
  Forall (λ pattern, Re.is_valid pattern = true) pattern_valued_settings.
Proof.
  split; [reflexivity|].
  unfold pattern_valued_settings, linkcheck_ignore; simpl.
  repeat constructor.
Qed.

(** C2: the light and the dark palette of [html_theme_options] define
    exactly the same set of colour-role keys. *)
Theorem palettes_have_same_roles :
  ∃ light dark : gmap string pyval,
    palette "light_css_variables" = Some light ∧
    palette "dark_css_variables" = Some dark ∧
    dom light = dom dark.
Proof.
  eexists _, _. split; [apply palette_light|]. split; [apply palette_dark|].
  rewrite !dict_display_dom.
  assert (Hkeys : (str_items light_css_variables).*1 = (str_items dark_css_variables).*1)
    by reflexivity.
  by rewrite Hkeys.
Qed.

(** C3: every value of the light palette and of the dark palette is a
    string made of [#] followed by exactly six hexadecimal digits. *)
Theorem palette_values_are_hex_colors
    (mode role : string) (colors : gmap string pyval) (v : pyval) :
  mode = "light_css_variables" ∨ mode = "dark_css_variables" →
  palette mode = Some colors →
  colors !! role = Some v →
  ∃ s, v = PStr s ∧ is_hex_color s = true.
Proof.
  intros Hmode Hpal Hrole.
  assert (Hall : Forall (λ kv, hex_color_value kv.2 = true)
                   (str_items light_css_variables ++ str_items dark_css_variables)).
  { apply Forall_app; split; apply str_items_hex; reflexivity. }
  assert (Hin : (role, v) ∈
                  (str_items light_css_variables ++ str_items dark_css_variables)%list).
  { apply elem_of_app.
    destruct Hmode as [-> | ->]; [rewrite palette_light in Hpal | rewrite palette_dark in Hpal];
      simplify_eq; [left | right]; by apply dict_display_lookup. }
  rewrite Forall_forall in Hall. specialize (Hall _ Hin). simpl in Hall.
  destruct v; try discriminate. eauto.
Qed.

Lemma palette_values_are_hex_colors_witness :
  ∃ s, PStr "#1C1D1F" = PStr s ∧ is_hex_color s = true.
Proof.
  apply (palette_values_are_hex_colors "dark_css_variables" "color-background-primary"
           (dict_display (str_items dark_css_variables)) (PStr "#1C1D1F")).
  - right; reflexivity.
  - reflexivity.
  - reflexivity.
Defined.

(** C4: the numeric link-check settings are 30, 5, 3 and 60.0, and each of
    them is non-negative.  The float 60.0 is the binary64 number with
    mantissa 60 * 2^47 and exponent -47, that is exactly sixty. *)
Theorem linkcheck_numbers :
  conf !! "linkcheck_timeout" = Some (PInt 30) ∧
  conf !! "linkcheck_workers" = Some (PInt 5) ∧
  conf !! "linkcheck_retries" = Some (PInt 3) ∧
  conf !! "linkcheck_rate_limit_timeout" = Some (PFloat (float_of_Z 60)) ∧
  float_of_Z 60 = S754_finite false (60 * 2 ^ 47) (-47) ∧
  Forall (λ name, non_negative <$> conf !! name = Some true)
    [ "linkcheck_timeout"; "linkcheck_workers"; "linkcheck_retries";
      "linkcheck_rate_limit_timeout" ].
Proof.
  split_and!; try reflexivity.
  repeat constructor.
Qed.

(** C5: the keys of [source_suffix] are pairwise distinct, each begins with
    a dot, and they are exactly [.rst] and [.md]. *)
Theorem source_suffix_keys :
  NoDup source_suffix.*1 ∧
  Forall (λ key, starts_with_dot key = true) source_suffix.*1 ∧
  source_suffix.*1 = [".rst"; ".md"] ∧
  dom (dict_display source_suffix) = {[ ".rst"; ".md" ]}.
Proof.
  split_and!.
  - apply (bool_decide_unpack _). by vm_compute.
  - repeat constructor.
  - reflexivity.
  - rewrite dict_display_dom. simpl. set_solver.
Qed.

(** C6: [myst_parser] is one of the extensions and [source_suffix] maps
    [.md] to [markdown]. *)
Theorem markdown_scenario_preconditions :
  ∃ exts,
    conf !! "extensions" = Some (PList exts) ∧
    PStr "myst_parser" ∈ exts ∧
    setting_item "source_suffix" ".md" = Some (PStr "markdown").
Proof.
  exists (PStr <$> extensions). split_and!.
  - reflexivity.
  - apply list_elem_of_fmap_2. unfold extensions. set_solver.
  - reflexivity.
Qed.

(** C7: no setting name is bound twice: the twenty-five assignments of the
    module have pairwise distinct targets, so the namespace holds one
    binding per assignment. *)
Theorem setting_names_unique :
  NoDup (assigned_names conf_py) ∧
  assigned_names conf_py =
    [ "project"; "copyright"; "author";
      "extensions"; "myst_enable_extensions"; "myst_heading_anchors";
      "smv_branch_whitelist"; "smv_tag_whitelist"; "smv_remote_whitelist";
      "smv_released_pattern";
      "templates_path"; "exclude_patterns"; "source_suffix";
      "linkcheck_timeout"; "linkcheck_workers"; "linkcheck_retries";
      "linkcheck_ignore"; "linkcheck_rate_limit_timeout"; "linkcheck_anchors";
      "html_theme"; "html_title"; "html_theme_options"; "html_static_path";
      "html_permalinks_icon"; "html_css_files" ] ∧
  size conf = length conf_py.
Proof.
  split_and!.
  - apply (bool_decide_unpack _). by vm_compute.
  - reflexivity.
  - by vm_compute.
Qed.



(** Files outside the template and static directories are documents when
    their suffix is known; a directory named [_static] further down is
    not the configured one. *)
Example discovered_files :
  Discovery.find_files "index.md" = Some true ∧
  Discovery.find_files "guide/intro.rst" = Some true ∧
  Discovery.find_files "guide/_static/notes.md" = Some true ∧
  Discovery.find_files "_static/notes.md" = Some false ∧
  Discovery.find_files "guide/_sources/intro.md" = Some false ∧
  Discovery.find_files "guide/diagram.svg" = Some false.
Proof. repeat split. Qed.

(** ** What the version filters accept *)

Section Filters.
Import Re.
Variable unicode_decimal : N → bool.

Local Abbreviation match_here := (match_here unicode_decimal).
Local Abbreviation fullmatch := (fullmatch unicode_decimal).

Lemma match_literals w p pos rest :
  match_here (literals w ++ p) pos rest = true ↔
  ∃ t, rest = (w ++ t)%list ∧ match_here p (pos + length w) t = true.
Proof.
  revert pos rest. induction w as [|c w IH]; intros pos rest; simpl.
  - rewrite Nat.add_0_r. split; [eauto | by intros (t & -> & ?)].
  - destruct rest as [|c' rest]; simpl.
    + split; [done | by intros (? & ? & ?)].
    + rewrite andb_true_iff, N.eqb_eq, IH. split.
      * intros (-> & t & -> & Ht). exists t. split; [done|].
        by replace (pos + S (length w)) with (S pos + length w) by lia.
      * intros (t & [= -> ->] & Ht). split; [done|]. exists t. split; [done|].
        by replace (S pos + length w) with (pos + S (length w)) by lia.
Qed.

Lemma match_at_end pos rest :
  match_here [At AtEnd] pos rest = true ↔ rest = [].
Proof.
  destruct rest as [|c rest]; simpl; [done|].
  rewrite andb_false_r. split; done.
Qed.

Lemma one_ext a k k' pos pos' rest :
  (∀ q q' r, k q r = k' q' r) → one unicode_decimal a k pos rest = one unicode_decimal a k' pos' rest.
Proof. intros Hk. destruct rest; simpl; [done|]. by rewrite (Hk _ (S pos')). Qed.

Lemma many_ext a k k' pos pos' rest :
  (∀ q q' r, k q r = k' q' r) → many unicode_decimal a k pos rest = many unicode_decimal a k' pos' rest.
Proof.
  intros Hk. revert pos pos'. induction rest as [|c rest IH]; intros pos pos'; simpl.
  - apply Hk.
  - by rewrite (IH _ (S pos')), (Hk _ pos').
Qed.

(** Only [^] looks at the position. *)
Lemma match_here_position p :
  no_beginning p = true →
  ∀ pos pos' rest, match_here p pos rest = match_here p pos' rest.
Proof.
  induction p as [|i p IH]; simpl; [done|].
  intros [Hi Hp]%andb_true_iff pos pos' rest. specialize (IH Hp).
  destruct i as [a | [] | [] a]; try discriminate; simpl.
  - by apply one_ext.
  - by rewrite (IH _ pos').
  - by apply many_ext.
  - apply one_ext. intros. by apply many_ext.
  - by rewrite (one_ext a _ _ pos pos' rest IH), (IH _ pos').
Qed.

Lemma match_beginning p rest :
  match_here (At AtBeginning :: p) 0 rest = match_here p 0 rest.
Proof. reflexivity. Qed.

(** A pattern of the shape [^literal$]. *)
Lemma exact_pattern w s :
  match_here (At AtBeginning :: literals w ++ [At AtEnd]) 0 s = true ↔ s = w.
Proof.
  rewrite match_beginning, match_literals. setoid_rewrite match_at_end. split.
  - intros (t & -> & ->). by rewrite app_nil_r.
  - intros ->. exists []. by rewrite app_nil_r.
Qed.

(** C8: a string fully matches [smv_branch_whitelist] exactly when it is
    [main], and fully matches [smv_remote_whitelist] exactly when it is
    [origin]. *)
Theorem single_branch_and_remote (s : list N) :
  (fullmatch smv_branch_whitelist s = Some true ↔ s = str "main") ∧
  (fullmatch smv_remote_whitelist s = Some true ↔ s = str "origin").
Proof.
  split.
  - change (fullmatch smv_branch_whitelist s)
      with (Some (match_here (At AtBeginning :: literals (str "main") ++ [At AtEnd]) 0 s)).
    split; [intros [= H]; by apply exact_pattern | intros H; f_equal; by apply exact_pattern].
  - change (fullmatch smv_remote_whitelist s)
      with (Some (match_here (At AtBeginning :: literals (str "origin") ++ [At AtEnd]) 0 s)).
    split; [intros [= H]; by apply exact_pattern | intros H; f_equal; by apply exact_pattern].
Qed.

Lemma compile_tag_whitelist :
  compile smv_tag_whitelist = Parsed (At AtBeginning :: version_tail).
Proof. reflexivity. Qed.

Lemma compile_released_pattern :
  compile smv_released_pattern =
  Parsed (At AtBeginning :: literals (str "tags/") ++ version_tail).
Proof. reflexivity. Qed.

(** C9: a string fully matches [smv_released_pattern] exactly when it is
    [tags/] followed by a string that fully matches [smv_tag_whitelist]. *)
Theorem released_is_prefixed_tag (s : list N) :
  fullmatch smv_released_pattern s = Some true ↔
  ∃ t, s = (str "tags/" ++ t)%list ∧ fullmatch smv_tag_whitelist t = Some true.
Proof.
  unfold Re.fullmatch. rewrite compile_tag_whitelist, compile_released_pattern.
  setoid_rewrite match_beginning.
  assert (Hs : ∀ b : bool, Some b = Some true ↔ b = true)
    by (intros b; split; [by intros [= ->] | by intros ->]).
  rewrite Hs, match_literals. setoid_rewrite Hs.
  assert (Hpos : ∀ t, match_here version_tail (0 + length (str "tags/")) t
                      = match_here version_tail 0 t)
    by (intros t; by apply match_here_position).
  by setoid_rewrite Hpos.
Qed.

(** Both sides of the equivalence are inhabited: a release tag of the
    project, and the same tag under [tags/]. *)
Example tag_v0_6_1 :
  Re.fullmatch ascii_decimal smv_tag_whitelist (str "v0.6.1") = Some true ∧
  Re.fullmatch ascii_decimal smv_released_pattern (str "tags/v0.6.1") = Some true ∧
  Re.fullmatch ascii_decimal smv_released_pattern (str "v0.6.1") = Some false ∧
  Re.fullmatch ascii_decimal smv_tag_whitelist (str "v0.6") = Some false.
Proof. repeat split. Qed.

(** [$] also holds just before a final newline, but a full match has to
    consume the whole subject, so [main] followed by a newline is
    rejected. *)
Example main_newline :
  Re.fullmatch ascii_decimal smv_branch_whitelist (str "main" ++ [10%N]) = Some false.
Proof. reflexivity. Qed.

(** Patterns the parser rejects, with the message [re.compile] gives. *)
Example rejected_patterns :
  compile "a**" = PatternError "multiple repeat" ∧
  compile "^*" = PatternError "nothing to repeat" ∧
  compile "v\" = PatternError "bad escape (end of pattern)" ∧
  compile "v\q" = PatternError "bad escape \q" ∧
  compile "v)" = PatternError "unbalanced parenthesis".
Proof. repeat split. Qed.
End Filters.

(** ** Every written item reaches the reader *)

Section Kept.
Context {V : Type}.
Implicit Types (items : list (string * V)) (d : gmap string V).

Lemma foldl_insert_lookup_iff items d k v :
  NoDup items.*1 →
  foldl (λ d kv, <[kv.1 := kv.2]> d) d items !! k = Some v ↔
  (k, v) ∈ items ∨ ((k ∉ items.*1) ∧ d !! k = Some v).
Proof.
  revert d. induction items as [|[k' v'] items IH]; intros d Hnd; simpl.
  - split; [intros ?; right; split; [apply not_elem_of_nil | done] | ].
    intros [Hin | [_ ?]]; [by apply elem_of_nil in Hin | done].
  - apply NoDup_cons in Hnd as [Hk' Hnd]. rewrite (IH _ Hnd).
    rewrite elem_of_cons, not_elem_of_cons, lookup_insert. split.
    + intros [Hin | [Hk Hd]]; [left; by right|].
      case_decide; simplify_eq/=; [left; by left | right; done].
    + intros [[[= -> ->] | Hin] | [[Hne Hk] Hd]].
      * right. split; [done|]. by rewrite decide_True.
      * by left.
      * right. split; [done|]. by rewrite decide_False.
Qed.

(** With pairwise distinct keys a display maps [k] to [v] exactly when
    the item [k: v] is written in it. *)
Lemma dict_display_lookup_iff items k v :
  NoDup items.*1 → dict_display items !! k = Some v ↔ (k, v) ∈ items.
Proof.
  intros Hnd. unfold dict_display. rewrite (foldl_insert_lookup_iff _ _ _ _ Hnd).
  rewrite lookup_empty. naive_solver.
Qed.
End Kept.

Lemma conf_py_names_distinct : NoDup conf_py.*1.
Proof. apply (bool_decide_unpack _). by vm_compute. Qed.

(** X1: every assignment of the module reaches the namespace with the
    value written: none is shadowed by a later assignment to the same
    name. *)
Theorem assignments_reach_the_namespace (name : string) (v : pyval) :
  (name, v) ∈ conf_py → conf !! name = Some v.
Proof.
  intros Hin. by apply (dict_display_lookup_iff conf_py), Hin; apply conf_py_names_distinct.
Qed.

Lemma assignments_reach_the_namespace_witness :
  ("html_theme", PStr "furo") ∈ conf_py ∧ conf !! "html_theme" = Some (PStr "furo").
Proof.
  assert (H : ("html_theme", PStr "furo") ∈ conf_py).
  { unfold conf_py. do 19 apply list_elem_of_further. apply list_elem_of_here. }
  split; [exact H | exact (assignments_reach_the_namespace "html_theme" (PStr "furo") H)].
Defined.

(** X5: every dictionary display of the file has pairwise distinct keys,
    so each of them maps a key to a value exactly when that item is
    written in it: no item is overwritten by a later one. *)
Theorem displays_keep_every_item :
  Forall (λ items : list (string * pyval),
            NoDup items.*1 ∧
            ∀ k v, dict_display items !! k = Some v ↔ (k, v) ∈ items)
    [ str_items source_suffix; html_theme_options;
      str_items light_css_variables; str_items dark_css_variables ].
Proof.
  assert (Hnd : Forall (λ items : list (string * pyval), NoDup items.*1)
                  [ str_items source_suffix; html_theme_options;
                    str_items light_css_variables; str_items dark_css_variables ]).
  { repeat constructor; apply (bool_decide_unpack _); by vm_compute. }
  eapply Forall_impl; [exact Hnd|]. intros items Hitems. split; [done|].
  intros k v. by apply dict_display_lookup_iff.
Qed.

(** ** The languages of the patterns *)

Section Languages.
Import Re.
Variable unicode_decimal : N → bool.

Local Abbreviation one := (one unicode_decimal).
Local Abbreviation many := (many unicode_decimal).
Local Abbreviation atom_matches := (atom_matches unicode_decimal).
Local Abbreviation match_from := (match_from unicode_decimal).
Local Abbreviation decimal_number := (decimal_number unicode_decimal).

Implicit Types (k : nat → list N → bool) (finish : list N → bool).

Lemma one_spec a k pos rest :
  one a k pos rest = true ↔
  ∃ c t, rest = c :: t ∧ atom_matches a c = true ∧ k (S pos) t = true.
Proof.
  destruct rest as [|c rest]; simpl.
  - split; [done | by intros (? & ? & ? & _)].
  - rewrite andb_true_iff. split; [by eauto | by intros (? & ? & [= <- <-] & ?)].
Qed.

Lemma many_spec a k pos rest :
  many a k pos rest = true ↔
  ∃ ds t, rest = (ds ++ t)%list ∧ Forall (λ c, atom_matches a c = true) ds ∧
          k (pos + length ds) t = true.
Proof.
  split.
  - revert pos. induction rest as [|c rest IH]; intros pos; simpl.
    + intros Hk. exists [], []. by rewrite Nat.add_0_r.
    + rewrite orb_true_iff, andb_true_iff. intros [[Hc Hmany] | Hk].
      * destruct (IH _ Hmany) as (ds & t & -> & Hds & Hk).
        exists (c :: ds), t. split; [done|]. split; [by constructor|].
        by replace (pos + length (c :: ds)) with (S pos + length ds) by (simpl; lia).
      * exists [], (c :: rest). by rewrite Nat.add_0_r.
  - intros (ds & t & -> & Hds & Hk). revert pos Hk.
    induction Hds as [|c ds Hc Hds IH]; intros pos Hk.
    + rewrite Nat.add_0_r in Hk. destruct t; simpl; [done|].
      by rewrite Hk, orb_true_r.
    + simpl. rewrite Hc, IH; [done|].
      by replace (S pos + length ds) with (pos + length (c :: ds)) by (simpl; lia).
Qed.

Lemma one_eq a k k' pos rest :
  (∀ q r, k q r = k' q r) → one a k pos rest = one a k' pos rest.
Proof. intros Hk. destruct rest; simpl; [done|]. by rewrite Hk. Qed.

Lemma many_eq a k k' pos rest :
  (∀ q r, k q r = k' q r) → many a k pos rest = many a k' pos rest.
Proof.
  intros Hk. revert pos. induction rest as [|c rest IH]; intros pos; simpl.
  - apply Hk.
  - by rewrite IH, Hk.
Qed.

(** A full match is the open matcher that accepts only the empty
    remainder. *)
Lemma match_here_from p pos rest :
  match_here unicode_decimal p pos rest = match_from nothing_left p pos rest.
Proof.
  revert pos rest. induction p as [|[a | w | [] a] p IH]; intros pos rest; simpl.
  - done.
  - by apply one_eq.
  - by rewrite IH.
  - by apply many_eq.
  - apply one_eq. intros. by apply many_eq.
  - by rewrite (one_eq a _ _ pos rest IH), IH.
Qed.

Lemma match_from_one finish a p pos rest :
  match_from finish (One a :: p) pos rest = true ↔
  ∃ c t, rest = c :: t ∧ atom_matches a c = true ∧ match_from finish p (S pos) t = true.
Proof. apply one_spec. Qed.

Lemma match_from_plus finish a p pos rest :
  match_from finish (MaxRepeat OneOrMore a :: p) pos rest = true ↔
  ∃ ds t, ds ≠ [] ∧ Forall (λ c, atom_matches a c = true) ds ∧
          rest = (ds ++ t)%list ∧ match_from finish p (pos + length ds) t = true.
Proof.
  change (match_from finish (MaxRepeat OneOrMore a :: p) pos rest)
    with (one a (many a (match_from finish p)) pos rest).
  rewrite one_spec. split.
  - intros (c & t & -> & Hc & (ds & t' & -> & Hds & Hk)%many_spec).
    exists (c :: ds), t'. split; [done|]. split; [by constructor|]. split; [done|].
    by replace (pos + length (c :: ds)) with (S pos + length ds) by (simpl; lia).
  - intros (ds & t & Hne & Hds & -> & Hk).
    destruct Hds as [|c ds Hc Hds]; [done|].
    exists c, (ds ++ t)%list. split; [done|]. split; [done|].
    apply many_spec. exists ds, t. split; [done|]. split; [done|].
    by replace (S pos + length ds) with (pos + length (c :: ds)) by (simpl; lia).
Qed.

Lemma match_from_star_any finish a p pos rest :
  match_from finish (MaxRepeat ZeroOrMore a :: p) pos rest = true ↔
  ∃ ds t, rest = (ds ++ t)%list ∧ Forall (λ c, atom_matches a c = true) ds ∧
          match_from finish p (pos + length ds) t = true.
Proof. apply many_spec. Qed.

Lemma match_from_at_end finish p pos rest :
  match_from finish (At AtEnd :: p) pos rest = true ↔
  (rest = [] ∨ rest = [10%N]) ∧ match_from finish p pos rest = true.
Proof.
  change (match_from finish (At AtEnd :: p) pos rest)
    with (at_position AtEnd pos rest && match_from finish p pos rest).
  rewrite andb_true_iff. destruct rest as [|c [|c' rest]]; simpl.
  - naive_solver.
  - rewrite N.eqb_eq. naive_solver.
  - naive_solver.
Qed.

Lemma match_from_literals finish w p pos rest :
  match_from finish (literals w ++ p) pos rest = true ↔
  ∃ t, rest = (w ++ t)%list ∧ match_from finish p (pos + length w) t = true.
Proof.
  revert pos rest. induction w as [|c w IH]; intros pos rest.
  - simpl. rewrite Nat.add_0_r. split; [eauto | by intros (t & -> & ?)].
  - change (literals (c :: w) ++ p)%list with (One (Literal c) :: literals w ++ p)%list.
    rewrite match_from_one. setoid_rewrite IH. split.
    + intros (c' & t & -> & ->%N.eqb_eq & t' & -> & Ht). exists t'. split; [done|].
      by replace (pos + length (c :: w)) with (S pos + length w) by (simpl; lia).
    + intros (t & -> & Ht). exists c, (w ++ t)%list. split; [done|].
      split; [apply N.eqb_refl|]. exists t. split; [done|].
      by replace (S pos + length w) with (pos + length (c :: w)) by (simpl; lia).
Qed.

(** The language of [v\d+\.\d+\.\d+$] under a full match, at any
    position of the subject. *)
Lemma version_tail_language pos t :
  match_from nothing_left version_tail pos t = true ↔
  ∃ major minor patch,
    decimal_number major ∧ decimal_number minor ∧ decimal_number patch ∧
    t = (str "v" ++ major ++ str "." ++ minor ++ str "." ++ patch)%list.
Proof.
  unfold version_tail. split.
  - intros (c1 & t1 & -> & ->%N.eqb_eq & H)%match_from_one.
    apply match_from_plus in H as (major & t2 & Hne1 & Hmajor & -> & H).
    apply match_from_one in H as (c2 & t3 & -> & ->%N.eqb_eq & H).
    apply match_from_plus in H as (minor & t4 & Hne2 & Hminor & -> & H).
    apply match_from_one in H as (c3 & t5 & -> & ->%N.eqb_eq & H).
    apply match_from_plus in H as (patch & t6 & Hne3 & Hpatch & -> & H).
    apply match_from_at_end in H as [_ H]. simpl in H.
    destruct t6; [|done]. rewrite app_nil_r.
    by exists major, minor, patch.
  - intros (major & minor & patch & [Hne1 Hmajor] & [Hne2 Hminor] & [Hne3 Hpatch] & ->).
    apply match_from_one. eexists _, _. split; [reflexivity|]. split; [reflexivity|].
    apply match_from_plus. eexists major, _. split_and!; [done | done | reflexivity |].
    apply match_from_one. eexists _, _. split; [reflexivity|]. split; [reflexivity|].
    apply match_from_plus. eexists minor, _. split_and!; [done | done | reflexivity |].
    apply match_from_one. eexists _, _. split; [reflexivity|]. split; [reflexivity|].
    apply match_from_plus. exists patch, []. split_and!; [done | done | by rewrite app_nil_r |].
    apply match_from_at_end. split; [by left | done].
Qed.
Lemma fullmatch_true pattern p s :
  compile pattern = Parsed p →
  fullmatch unicode_decimal pattern s = Some true ↔ match_from nothing_left p 0 s = true.
Proof.
  intros Hp. unfold fullmatch. rewrite Hp, match_here_from.
  split; [by intros [= ->] | by intros ->].
Qed.

Lemma match_true pattern p s :
  compile pattern = Parsed p →
  match_ unicode_decimal pattern s = Some true ↔ match_from (λ _, true) p 0 s = true.
Proof.
  intros Hp. unfold match_. rewrite Hp.
  split; [by intros [= ->] | by intros ->].
Qed.

(** X3: the tag whitelist accepts exactly the strings [v], a decimal
    number, a dot, a decimal number, a dot and a decimal number. *)
Theorem tag_whitelist_language (s : list N) :
  fullmatch unicode_decimal smv_tag_whitelist s = Some true ↔
  ∃ major minor patch,
    decimal_number major ∧ decimal_number minor ∧ decimal_number patch ∧
    s = (str "v" ++ major ++ str "." ++ minor ++ str "." ++ patch)%list.
Proof.
  rewrite (fullmatch_true _ _ _ compile_tag_whitelist).
  change (match_from nothing_left (At AtBeginning :: version_tail) 0 s)
    with (match_from nothing_left version_tail 0 s).
  apply version_tail_language.
Qed.

(** X6: the released pattern accepts exactly the strings [tags/v]
    followed by three decimal numbers separated by dots. *)
Theorem released_pattern_language (s : list N) :
  fullmatch unicode_decimal smv_released_pattern s = Some true ↔
  ∃ major minor patch,
    decimal_number major ∧ decimal_number minor ∧ decimal_number patch ∧
    s = (str "tags/v" ++ major ++ str "." ++ minor ++ str "." ++ patch)%list.
Proof.
  rewrite (fullmatch_true _ _ _ compile_released_pattern).
  change (match_from nothing_left (At AtBeginning :: ?p) 0 s)
    with (match_from nothing_left p 0 s).
  rewrite match_from_literals. setoid_rewrite version_tail_language. split.
  - intros (t & -> & major & minor & patch & ? & ? & ? & ->).
    by exists major, minor, patch.
  - intros (major & minor & patch & ? & ? & ? & ->).
    exists (str "v" ++ major ++ str "." ++ minor ++ str "." ++ patch)%list.
    split; [done|]. by exists major, minor, patch.
Qed.

Lemma match_exact_pattern w s :
  match_from (λ _, true) (At AtBeginning :: literals w ++ [At AtEnd]) 0 s = true ↔
  s = w ∨ s = (w ++ [10%N])%list.
Proof.
  change (match_from ?f (At AtBeginning :: ?p) 0 s) with (match_from f p 0 s).
  rewrite match_from_literals. setoid_rewrite match_from_at_end. split.
  - intros (t & -> & [-> | ->] & _); [left; by rewrite app_nil_r | by right].
  - intros [-> | ->]; [exists []; rewrite app_nil_r | exists [10%N]]; naive_solver.
Qed.

(** X4: with [re.match] instead of a full match, the branch and remote
    whitelists accept the name itself and the name followed by one
    newline, and nothing else. *)
Theorem whitelists_under_match (s : list N) :
  (match_ unicode_decimal smv_branch_whitelist s = Some true ↔
   s = str "main" ∨ s = (str "main" ++ [10%N])%list) ∧
  (match_ unicode_decimal smv_remote_whitelist s = Some true ↔
   s = str "origin" ∨ s = (str "origin" ++ [10%N])%list).
Proof.
  split.
  - rewrite (match_true _ (At AtBeginning :: literals (str "main") ++ [At AtEnd]))
      by reflexivity.
    apply match_exact_pattern.
  - rewrite (match_true _ (At AtBeginning :: literals (str "origin") ++ [At AtEnd]))
      by reflexivity.
    apply match_exact_pattern.
Qed.

Lemma match_prefix_pattern w s :
  match_from (λ _, true) (literals w ++ [MaxRepeat ZeroOrMore Any]) 0 s = true ↔
  ∃ t, s = (w ++ t)%list.
Proof.
  rewrite match_from_literals. split; [intros (t & -> & _); by eexists|].
  intros (t & ->). exists t. split; [done|].
  apply match_from_star_any. exists [], t. by repeat split.
Qed.

(** X2: the link checker ignores a URI exactly when it begins with
    [http://localhost] or with [http://127.0.0.1]; what follows the
    prefix does not matter. *)
Theorem ignored_links (uri : list N) :
  link_ignored unicode_decimal linkcheck_ignore uri = true ↔
  (∃ t, uri = (str "http://localhost" ++ t)%list) ∨
  (∃ t, uri = (str "http://127.0.0.1" ++ t)%list).
Proof.
  unfold link_ignored, linkcheck_ignore. cbn [existsb].
  rewrite orb_false_r, orb_true_iff.
  rewrite <- !match_prefix_pattern.
  rewrite <- (match_true "http://localhost.*") by reflexivity.
  rewrite <- (match_true "http://127\.0\.0\.1.*") by reflexivity.
  split; (intros [H | H]; [left | right]).
  all: by destruct (match_ _ _ uri) as [[]|]; simplify_eq/=.
Qed.
End Languages.
